(** * football/configs/configs.py: the field configuration and its geometry

    A shallow embedding of the [FootballFieldConfiguration] dataclass and of
    its [vertices] property, with the fragment of Python's numeric tower the
    property touches: unbounded integers, and the binary64 float produced by
    the true division [self.width / 2]. *)

From Stdlib Require Import ZArith List String Bool Lia.
From Stdlib Require Import Floats.SpecFloat.
Import ListNotations.
Local Open Scope Z_scope.

(** ** Python values and exceptions *)

Module Py.

(** The exceptions integer true division can raise. *)
Inductive exn : Set :=
| OverflowError
| ZeroDivisionError.

(** Outcome of evaluating an expression: a value, or a raised exception. *)
Inductive result (A : Type) : Type :=
| Ok (a : A)
| Raise (e : exn).
Arguments Ok {A} a.
Arguments Raise {A} e.

Definition bind {A B : Type} (r : result A) (k : A -> result B) : result B :=
  match r with
  | Ok a => k a
  | Raise e => Raise e
  end.

(** A list display evaluates its items from left to right; the first
    exception aborts the whole display. *)
Fixpoint sequence {A : Type} (items : list (result A)) : result (list A) :=
  match items with
  | [] => Ok []
  | item :: rest =>
      bind item (fun a => bind (sequence rest) (fun l => Ok (a :: l)))
  end.

(** Numbers: [int] is unbounded, [float] is IEEE 754 binary64. *)
Inductive num : Set :=
| Int (z : Z)
| Float (f : spec_float).

Definition prec : Z := 53.
Definition emax : Z := 1024.

(** [a / b] on two ints (CPython's [long_true_divide]): division by zero
    raises; a zero numerator gives a signed zero; otherwise the exact
    quotient is rounded to the nearest binary64, ties to even, and a
    quotient that rounds beyond the largest finite float raises. *)
Definition long_true_divide (a b : Z) : result num :=
  let negate := xorb (a <? 0) (b <? 0) in
  match b with
  | 0 => Raise ZeroDivisionError
  | _ =>
      match a with
      | 0 => Ok (Float (S754_zero negate))
      | _ =>
          let '(m, e, l) :=
            SFdiv_core_binary prec emax (Z.abs a) 0 (Z.abs b) 0 in
          match binary_round_aux prec emax negate m e l with
          | S754_infinity _ => Raise OverflowError
          | f => Ok (Float f)
          end
      end
  end.

(** The integer a float denotes, when it denotes one
    ([float.is_integer] is [true] exactly when this is [Some]). *)
Definition float_as_integer (f : spec_float) : option Z :=
  match f with
  | S754_zero _ => Some 0
  | S754_finite s m e =>
      if 0 <=? e then Some (cond_Zopp s (Zpos m * 2 ^ e))
      else if Zpos m mod 2 ^ (- e) =? 0
           then Some (cond_Zopp s (Zpos m / 2 ^ (- e)))
           else None
  | S754_infinity _ | S754_nan => None
  end.

(** [x == y] on numbers: ints by value, floats by IEEE comparison, and an
    int against a float by their exact mathematical values. *)
Definition num_eqb (x y : num) : bool :=
  match x, y with
  | Int a, Int b => a =? b
  | Float f, Float g => SFeqb f g
  | Int a, Float f | Float f, Int a =>
      match float_as_integer f with
      | Some z => a =? z
      | None => false
      end
  end.

(** [isinstance(x, int)]. *)
Definition is_int (x : num) : bool :=
  match x with
  | Int _ => true
  | Float _ => false
  end.

(** A number whose value is an integer, whatever its type. *)
Definition is_integral (x : num) : bool :=
  match x with
  | Int _ => true
  | Float f =>
      match float_as_integer f with
      | Some _ => true
      | None => false
      end
  end.

(** [p == q] on 2-tuples of numbers. *)
Definition tuple_eqb (p q : num * num) : bool :=
  num_eqb (fst p) (fst q) && num_eqb (snd p) (snd q).

(** [l == m] on lists of 2-tuples: same length, items pairwise equal. *)
Fixpoint list_eqb (l m : list (num * num)) : bool :=
  match l, m with
  | [], [] => true
  | p :: l', q :: m' => tuple_eqb p q && list_eqb l' m'
  | _, _ => false
  end.

End Py.

Import Py.

Notation "x <- c ;; k" := (bind c (fun x => k))
  (at level 61, c at next level, right associativity).

(** ** The dataclass *)

Module Configs.

(** The thirteen fields of [FootballFieldConfiguration], in declaration
    order; [vertices] is a property, not a field. *)
Record FootballFieldConfiguration : Type := {
  width : Z;
  length : Z;
  end_zone_depth : Z;
  goal_line_1 : Z;
  goal_line_2 : Z;
  hash_distance_from_sideline : Z;
  hash_length : Z;
  yard_line_interval : Z;
  fifty_yard_line : Z;
  number_distance_from_sideline : Z;
  edges : list (Z * Z);
  labels : list string;
  colors : list string
}.

(** The [default_factory] of each list-valued field. *)
Definition default_edges : list (Z * Z) :=
  [ (1, 3); (2, 4);
    (1, 2); (3, 4);
    (5, 6); (7, 8);
    (9, 10);
    (1, 5); (2, 6); (3, 7); (4, 8);
    (12, 13); (14, 15); (16, 17);
    (18, 19); (20, 21); (22, 23);
    (24, 25); (26, 27); (28, 29);
    (5, 9); (6, 10); (9, 7); (10, 8) ].

Definition default_labels : list string :=
  [ "01"; "02"; "03"; "04"; "05"; "06"; "07"; "08"; "09"; "10";
    "11"; "12"; "13"; "14"; "15"; "16"; "17"; "18"; "19"; "20";
    "21"; "22"; "23"; "24"; "25"; "26"; "27"; "28"; "29"; "30";
    "31"; "32" ]%string.

Definition default_colors : list string :=
  [ "#FF1493"; "#FF1493"; "#FF1493"; "#FF1493";
    "#FF1493"; "#FF1493"; "#FF1493"; "#FF1493";
    "#00BFFF"; "#00BFFF"; "#00BFFF";
    "#FF6347"; "#FF6347"; "#FF6347"; "#FF6347"; "#FF6347"; "#FF6347";
    "#FF6347"; "#FF6347"; "#FF6347"; "#FF6347"; "#FF6347"; "#FF6347";
    "#FF6347"; "#FF6347"; "#FF6347"; "#FF6347"; "#FF6347"; "#FF6347";
    "#00BFFF"; "#00BFFF"; "#00BFFF" ]%string.

(** Keyword arguments of the generated [__init__]: every field is
    optional, [None] standing for an argument that is not passed. *)
Record init_args : Type := {
  arg_width : option Z;
  arg_length : option Z;
  arg_end_zone_depth : option Z;
  arg_goal_line_1 : option Z;
  arg_goal_line_2 : option Z;
  arg_hash_distance_from_sideline : option Z;
  arg_hash_length : option Z;
  arg_yard_line_interval : option Z;
  arg_fifty_yard_line : option Z;
  arg_number_distance_from_sideline : option Z;
  arg_edges : option (list (Z * Z));
  arg_labels : option (list string);
  arg_colors : option (list string)
}.

Definition or_default {A : Type} (arg : option A) (dflt : A) : A :=
  match arg with
  | Some a => a
  | None => dflt
  end.

(** The generated [__init__]: each field takes the argument passed, or
    its default; nothing is validated. *)
Definition init (a : init_args) : FootballFieldConfiguration := {|
  width := or_default (arg_width a) 1920;
  length := or_default (arg_length a) 4320;
  end_zone_depth := or_default (arg_end_zone_depth a) 360;
  goal_line_1 := or_default (arg_goal_line_1 a) 360;
  goal_line_2 := or_default (arg_goal_line_2 a) 3960;
  hash_distance_from_sideline :=
    or_default (arg_hash_distance_from_sideline a) 720;
  hash_length := or_default (arg_hash_length a) 24;
  yard_line_interval := or_default (arg_yard_line_interval a) 180;
  fifty_yard_line := or_default (arg_fifty_yard_line a) 2160;
  number_distance_from_sideline :=
    or_default (arg_number_distance_from_sideline a) 324;
  edges := or_default (arg_edges a) default_edges;
  labels := or_default (arg_labels a) default_labels;
  colors := or_default (arg_colors a) default_colors
|}.

Definition vertex : Set := (num * num)%type.

(** An int-int tuple never raises. *)
Definition pt (x y : Z) : result vertex := Ok (Int x, Int y).

(** The [vertices] property: the 32 tuples of the list display, in
    source order. *)
Definition vertices (self : FootballFieldConfiguration)
  : result (list vertex) :=
  sequence
    [ pt 0 0;
      pt 0 (width self);
      pt (length self) 0;
      pt (length self) (width self);

      pt (goal_line_1 self) 0;
      pt (goal_line_1 self) (width self);
      pt (goal_line_2 self) 0;
      pt (goal_line_2 self) (width self);

      pt (fifty_yard_line self) 0;
      pt (fifty_yard_line self) (width self);
      (half <- long_true_divide (width self) 2 ;;
       Ok (Int (fifty_yard_line self), half));

      pt (goal_line_1 self) (hash_distance_from_sideline self);
      pt (goal_line_1 self) (width self - hash_distance_from_sideline self);
      pt (goal_line_2 self) (hash_distance_from_sideline self);
      pt (goal_line_2 self) (width self - hash_distance_from_sideline self);
      pt (fifty_yard_line self) (hash_distance_from_sideline self);
      pt (fifty_yard_line self)
         (width self - hash_distance_from_sideline self);

      pt (goal_line_1 self + yard_line_interval self * 2)
         (hash_distance_from_sideline self);
      pt (goal_line_1 self + yard_line_interval self * 2)
         (width self - hash_distance_from_sideline self);
      pt (goal_line_1 self + yard_line_interval self * 4)
         (hash_distance_from_sideline self);
      pt (goal_line_1 self + yard_line_interval self * 4)
         (width self - hash_distance_from_sideline self);
      pt (goal_line_1 self + yard_line_interval self * 6)
         (hash_distance_from_sideline self);
      pt (goal_line_1 self + yard_line_interval self * 6)
         (width self - hash_distance_from_sideline self);

      pt (goal_line_2 self - yard_line_interval self * 6)
         (hash_distance_from_sideline self);
      pt (goal_line_2 self - yard_line_interval self * 6)
         (width self - hash_distance_from_sideline self);
      pt (goal_line_2 self - yard_line_interval self * 4)
         (hash_distance_from_sideline self);
      pt (goal_line_2 self - yard_line_interval self * 4)
         (width self - hash_distance_from_sideline self);
      pt (goal_line_2 self - yard_line_interval self * 2)
         (hash_distance_from_sideline self);
      pt (goal_line_2 self - yard_line_interval self * 2)
         (width self - hash_distance_from_sideline self);

      pt (goal_line_1 self + yard_line_interval self * 2)
         (number_distance_from_sideline self);
      pt (goal_line_1 self + yard_line_interval self * 2)
         (width self - number_distance_from_sideline self);
      pt (fifty_yard_line self) (number_distance_from_sideline self) ].

End Configs.

Import Configs.

(** ** Constructions and positions *)

(** Overrides of the ten scalar attributes only. *)
Record scalar_overrides : Type := {
  o_width : option Z;
  o_length : option Z;
  o_end_zone_depth : option Z;
  o_goal_line_1 : option Z;
  o_goal_line_2 : option Z;
  o_hash_distance_from_sideline : option Z;
  o_hash_length : option Z;
  o_yard_line_interval : option Z;
  o_fifty_yard_line : option Z;
  o_number_distance_from_sideline : option Z
}.

Definition no_overrides : scalar_overrides := {|
  o_width := None;
  o_length := None;
  o_end_zone_depth := None;
  o_goal_line_1 := None;
  o_goal_line_2 := None;
  o_hash_distance_from_sideline := None;
  o_hash_length := None;
  o_yard_line_interval := None;
  o_fifty_yard_line := None;
  o_number_distance_from_sideline := None
|}.

(** A construction that passes scalar arguments and leaves [edges],
    [labels] and [colors] to their factories. *)
Definition Construct (o : scalar_overrides) : FootballFieldConfiguration :=
  init {|
    arg_width := o_width o;
    arg_length := o_length o;
    arg_end_zone_depth := o_end_zone_depth o;
    arg_goal_line_1 := o_goal_line_1 o;
    arg_goal_line_2 := o_goal_line_2 o;
    arg_hash_distance_from_sideline := o_hash_distance_from_sideline o;
    arg_hash_length := o_hash_length o;
    arg_yard_line_interval := o_yard_line_interval o;
    arg_fifty_yard_line := o_fifty_yard_line o;
    arg_number_distance_from_sideline := o_number_distance_from_sideline o;
    arg_edges := None;
    arg_labels := None;
    arg_colors := None
  |}.

(** [FootballFieldConfiguration(width=w)]. *)
Definition with_width (w : Z) : scalar_overrides := {|
  o_width := Some w;
  o_length := None;
  o_end_zone_depth := None;
  o_goal_line_1 := None;
  o_goal_line_2 := None;
  o_hash_distance_from_sideline := None;
  o_hash_length := None;
  o_yard_line_interval := None;
  o_fifty_yard_line := None;
  o_number_distance_from_sideline := None
|}.

(** The item at a 1-based position, as the spec numbers vertices. *)
Definition at_pos {A : Type} (l : list A) (i : nat) : option A :=
  match i with
  | O => None
  | S j => nth_error l j
  end.

(** ** Relations between instances and between sequences *)

(** Two instances whose ten scalar attributes have the same values. *)
Definition same_scalars (c1 c2 : FootballFieldConfiguration) : Prop :=
  width c1 = width c2 /\
  length c1 = length c2 /\
  end_zone_depth c1 = end_zone_depth c2 /\
  goal_line_1 c1 = goal_line_1 c2 /\
  goal_line_2 c1 = goal_line_2 c2 /\
  hash_distance_from_sideline c1 = hash_distance_from_sideline c2 /\
  hash_length c1 = hash_length c2 /\
  yard_line_interval c1 = yard_line_interval c2 /\
  fifty_yard_line c1 = fifty_yard_line c2 /\
  number_distance_from_sideline c1 = number_distance_from_sideline c2.

(** Two instances with distinct widths and the nine other scalars equal. *)
Definition differ_only_in_width (c1 c2 : FootballFieldConfiguration) : Prop :=
  width c1 <> width c2 /\
  length c1 = length c2 /\
  end_zone_depth c1 = end_zone_depth c2 /\
  goal_line_1 c1 = goal_line_1 c2 /\
  goal_line_2 c1 = goal_line_2 c2 /\
  hash_distance_from_sideline c1 = hash_distance_from_sideline c2 /\
  hash_length c1 = hash_length c2 /\
  yard_line_interval c1 = yard_line_interval c2 /\
  fifty_yard_line c1 = fifty_yard_line c2 /\
  number_distance_from_sideline c1 = number_distance_from_sideline c2.

(** Two instances that agree on every scalar but, possibly,
    [end_zone_depth] and [hash_length]. *)
Definition agree_but_depth_and_hash_length
    (c1 c2 : FootballFieldConfiguration) : Prop :=
  width c1 = width c2 /\
  length c1 = length c2 /\
  goal_line_1 c1 = goal_line_1 c2 /\
  goal_line_2 c1 = goal_line_2 c2 /\
  hash_distance_from_sideline c1 = hash_distance_from_sideline c2 /\
  yard_line_interval c1 = yard_line_interval c2 /\
  fifty_yard_line c1 = fifty_yard_line c2 /\
  number_distance_from_sideline c1 = number_distance_from_sideline c2.

(** [v1[i-1] == v2[i-1]] and [v1[i-1] != v2[i-1]] at a 1-based position
    present in both sequences. *)
Definition agrees_at (v1 v2 : list vertex) (i : nat) : bool :=
  match at_pos v1 i, at_pos v2 i with
  | Some p, Some q => tuple_eqb p q
  | _, _ => false
  end.

Definition differs_at (v1 v2 : list vertex) (i : nat) : bool :=
  match at_pos v1 i, at_pos v2 i with
  | Some p, Some q => negb (tuple_eqb p q)
  | _, _ => false
  end.

(** The top/bottom pairs of hash-mark and number-position vertices. *)
Definition mirror_pairs : list (nat * nat) :=
  [ (12, 13); (14, 15); (16, 17); (18, 19); (20, 21);
    (22, 23); (24, 25); (26, 27); (28, 29); (30, 31) ]%nat.

(** Both tuples are int-int, share their first coordinate, and their second
    coordinates sum to [w]. *)
Definition mirrored (w : Z) (v : list vertex) (ij : nat * nat) : Prop :=
  exists x y1 y2 : Z,
    at_pos v (fst ij) = Some (Int x, Int y1) /\
    at_pos v (snd ij) = Some (Int x, Int y2) /\
    y1 + y2 = w.

(** A float that is a zero or a finite number. *)
Definition float_is_finite (f : spec_float) : bool :=
  match f with
  | S754_zero _ | S754_finite _ _ _ => true
  | S754_infinity _ | S754_nan => false
  end.

(** The value of the list display once its one fallible item, the
    midfield tuple, has produced [half]. *)
Definition vertex_list (self : FootballFieldConfiguration) (half : num)
  : list vertex :=
  let w := width self in
  let h := hash_distance_from_sideline self in
  let n := number_distance_from_sideline self in
  let g1 := goal_line_1 self in
  let g2 := goal_line_2 self in
  let y := yard_line_interval self in
  let f := fifty_yard_line self in
  [ (Int 0, Int 0); (Int 0, Int w);
    (Int (length self), Int 0); (Int (length self), Int w);
    (Int g1, Int 0); (Int g1, Int w); (Int g2, Int 0); (Int g2, Int w);
    (Int f, Int 0); (Int f, Int w); (Int f, half);
    (Int g1, Int h); (Int g1, Int (w - h));
    (Int g2, Int h); (Int g2, Int (w - h));
    (Int f, Int h); (Int f, Int (w - h));
    (Int (g1 + y * 2), Int h); (Int (g1 + y * 2), Int (w - h));
    (Int (g1 + y * 4), Int h); (Int (g1 + y * 4), Int (w - h));
    (Int (g1 + y * 6), Int h); (Int (g1 + y * 6), Int (w - h));
    (Int (g2 - y * 6), Int h); (Int (g2 - y * 6), Int (w - h));
    (Int (g2 - y * 4), Int h); (Int (g2 - y * 4), Int (w - h));
    (Int (g2 - y * 2), Int h); (Int (g2 - y * 2), Int (w - h));
    (Int (g1 + y * 2), Int n); (Int (g1 + y * 2), Int (w - n));
    (Int f, Int n) ].

(** ** Geometry read in a vertex sequence *)

(** The coordinates of the point at a 1-based position, when both are
    ints. *)
Definition int_point (v : list vertex) (i : nat) : option (Z * Z) :=
  match at_pos v i with
  | Some (Int x, Int y) => Some (x, y)
  | _ => None
  end.

(** The two points an edge joins: an edge [(i, j)] is drawn between
    [vertices[i - 1]] and [vertices[j - 1]]. *)
Definition endpoints (v : list vertex) (e : Z * Z)
  : option ((Z * Z) * (Z * Z)) :=
  match int_point v (Z.to_nat (fst e)), int_point v (Z.to_nat (snd e)) with
  | Some p, Some q => Some (p, q)
  | _, _ => None
  end.

(** An edge between two int points that share a coordinate: a segment
    parallel to a sideline or to a goal line. *)
Definition axis_aligned (v : list vertex) (e : Z * Z) : Prop :=
  exists p q,
    endpoints v e = Some (p, q) /\ (fst p = fst q \/ snd p = snd q).

(** An edge between two distinct int points. *)
Definition proper_segment (v : list vertex) (e : Z * Z) : Prop :=
  exists p q, endpoints v e = Some (p, q) /\ p <> q.

(** Two int points at the same distance from a sideline whose distances
    from the back line sum to [s]: mirror images across [x = s / 2]. *)
Definition x_mirrored (s : Z) (v : list vertex) (ij : nat * nat) : Prop :=
  exists x1 x2 y : Z,
    int_point v (fst ij) = Some (x1, y) /\
    int_point v (snd ij) = Some (x2, y) /\
    x1 + x2 = s.

(** An int point inside the rectangle [[0, l] x [0, w]]. *)
Definition inside (l w : Z) (v : list vertex) (i : nat) : Prop :=
  exists x y : Z,
    int_point v i = Some (x, y) /\ 0 <= x <= l /\ 0 <= y <= w.

(** The positions of the vertices built from int arithmetic alone: all
    but the midfield centre. *)
Definition int_positions : list nat :=
  [1; 2; 3; 4; 5; 6; 7; 8; 9; 10; 12; 13; 14; 15; 16; 17; 18; 19; 20; 21;
   22; 23; 24; 25; 26; 27; 28; 29; 30; 31; 32]%nat.

(** Left and right vertices paired across the middle of the goal lines,
    and the corners paired across the middle of the field. *)
Definition goal_line_mirror_pairs : list (nat * nat) :=
  [ (5, 7); (6, 8); (12, 14); (13, 15); (18, 28); (19, 29);
    (20, 26); (21, 27); (22, 24); (23, 25) ]%nat.

Definition corner_mirror_pairs : list (nat * nat) :=
  [ (1, 3); (2, 4) ]%nat.

Definition midfield_positions : list (nat * nat) :=
  [ (9, 9); (10, 10); (16, 16); (17, 17); (32, 32) ]%nat.

(** The vertices of the top hash line, from the left goal line to the
    right one. *)
Definition top_hash_row : list nat :=
  [12; 18; 20; 22; 16; 24; 26; 28; 14]%nat.

(** The points of a row, when all of them are int points. *)
Fixpoint row_points (v : list vertex) (row : list nat) : option (list (Z * Z)) :=
  match row with
  | [] => Some []
  | i :: rest =>
      match int_point v i, row_points v rest with
      | Some p, Some ps => Some (p :: ps)
      | _, _ => None
      end
  end.

(** Strictly increasing first coordinates. *)
Fixpoint x_increasing (ps : list (Z * Z)) : Prop :=
  match ps with
  | p :: (q :: _) as rest => fst p < fst q /\ x_increasing rest
  | _ => True
  end.

(** The same field measured in a unit [k] times finer: every scalar is
    multiplied by [k]. *)
Definition rescale (k : Z) (c : FootballFieldConfiguration)
  : FootballFieldConfiguration := {|
  width := k * width c;
  length := k * length c;
  end_zone_depth := k * end_zone_depth c;
  goal_line_1 := k * goal_line_1 c;
  goal_line_2 := k * goal_line_2 c;
  hash_distance_from_sideline := k * hash_distance_from_sideline c;
  hash_length := k * hash_length c;
  yard_line_interval := k * yard_line_interval c;
  fifty_yard_line := k * fifty_yard_line c;
  number_distance_from_sideline := k * number_distance_from_sideline c;
  edges := edges c;
  labels := labels c;
  colors := colors c
|}.

(** The point at a position of the rescaled field is [k] times the point
    of the original. *)
Definition rescaled_at (k : Z) (v v' : list vertex) (i : nat) : Prop :=
  exists x y : Z,
    int_point v i = Some (x, y) /\ int_point v' i = Some (k * x, k * y).

(** [f"{i:02d}"] for [i] below 100. *)
Definition two_digits (i : nat) : string :=
  String (Ascii.ascii_of_nat (48 + i / 10))
    (String (Ascii.ascii_of_nat (48 + i mod 10)) EmptyString).

(** ** Rounding to binary64: no NaN, and no overflow below [2 ** 1024] *)

Lemma shr_1_nonneg (mrs : shr_record) :
  0 <= shr_m mrs -> 0 <= shr_m (shr_1 mrs).
Proof.
  destruct mrs as [m r s]; cbn [shr_m].
  destruct m as [|p|p]; [easy | | intros H; exfalso; lia].
  intros _. destruct p; cbn; lia.
Qed.

Lemma iter_pos_preserves {A : Type} (P : A -> Prop) (f : A -> A) :
  (forall x, P x -> P (f x)) ->
  forall (n : positive) (x : A), P x -> P (iter_pos f n x).
Proof.
  intros Hf. induction n as [n IH|n IH|]; intros x Hx; cbn.
  - apply IH, IH, Hf, Hx.
  - apply IH, IH, Hx.
  - apply Hf, Hx.
Qed.

Lemma shr_nonneg (mrs : shr_record) (e n : Z) :
  0 <= shr_m mrs -> 0 <= shr_m (fst (shr mrs e n)).
Proof.
  intros H. unfold shr. destruct n as [|p|p]; cbn [fst]; try assumption.
  apply (iter_pos_preserves (fun r => 0 <= shr_m r)); auto using shr_1_nonneg.
Qed.

Lemma shr_fexp_nonneg (m e : Z) (l : location) :
  0 <= m -> 0 <= shr_m (fst (shr_fexp prec emax m e l)).
Proof.
  intros H. unfold shr_fexp. apply shr_nonneg.
  destruct l as [|[ | | ]]; cbn; assumption.
Qed.

Lemma round_nearest_even_nonneg (m : Z) (l : location) :
  0 <= m -> 0 <= round_nearest_even m l.
Proof.
  intros H. unfold round_nearest_even.
  destruct l as [|[ | | ]]; try destruct (Z.even m); lia.
Qed.

Lemma binary_round_aux_not_nan (s : bool) (m e : Z) (l : location) :
  0 <= m -> binary_round_aux prec emax s m e l <> S754_nan.
Proof.
  intros H. unfold binary_round_aux.
  pose proof (shr_fexp_nonneg m e l H) as H1.
  destruct (shr_fexp prec emax m e l) as [mrs' e']; cbn [fst] in H1.
  pose proof (shr_fexp_nonneg
                (round_nearest_even (shr_m mrs') (loc_of_shr_record mrs'))
                e' loc_Exact
                (round_nearest_even_nonneg _ _ H1)) as H2.
  destruct (shr_fexp prec emax _ e' loc_Exact) as [mrs'' e'']; cbn [fst] in H2.
  destruct (shr_m mrs'') as [|p|p]; try discriminate.
  - destruct (e'' <=? emax - prec); discriminate.
  - lia.
Qed.

Lemma SFdiv_core_binary_nonneg (m1 e1 m2 e2 : Z) :
  0 <= m1 -> 0 < m2 ->
  0 <= fst (fst (SFdiv_core_binary prec emax m1 e1 m2 e2)).
Proof.
  intros H1 H2. unfold SFdiv_core_binary.
  set (s := e1 - e2 - _).
  set (m' := match s with 0 => m1 | Zpos _ => Z.shiftl m1 s | Zneg _ => 0 end).
  assert (Hm' : 0 <= m').
  { subst m'. destruct s; try lia. apply Z.shiftl_nonneg. exact H1. }
  pose proof (Z.div_pos m' m2 Hm' H2) as Hq.
  unfold Z.div in Hq.
  destruct (Z.div_eucl m' m2) as [q r]. exact Hq.
Qed.

Lemma shr_1_div2 (mrs : shr_record) :
  0 <= shr_m mrs -> shr_m (shr_1 mrs) = shr_m mrs / 2.
Proof.
  destruct mrs as [m r s]; cbn [shr_m]. intros H.
  rewrite <- Z.div2_div.
  destruct m as [|p|p]; [reflexivity | | lia].
  destruct p; reflexivity.
Qed.

Lemma shr_1_below (mrs : shr_record) (k : Z) :
  0 <= k -> 0 <= shr_m mrs < 2 ^ k ->
  0 <= shr_m (shr_1 mrs) < 2 ^ Z.max (k - 1) 0.
Proof.
  intros Hk [H0 Hlt]. rewrite shr_1_div2 by assumption.
  split; [apply Z.div_pos; lia|].
  destruct (Z.eq_dec k 0) as [->|Hne].
  - change (2 ^ 0) with 1 in Hlt. replace (shr_m mrs) with 0 by lia. reflexivity.
  - rewrite Z.max_l by lia.
    apply Z.div_lt_upper_bound; [lia|].
    rewrite <- Z.pow_succ_r by lia. replace (Z.succ (k - 1)) with k by lia.
    exact Hlt.
Qed.

Lemma iter_shr_1_below (n : positive) :
  forall (mrs : shr_record) (k : Z),
    0 <= k -> 0 <= shr_m mrs < 2 ^ k ->
    0 <= shr_m (iter_pos shr_1 n mrs) < 2 ^ Z.max (k - Zpos n) 0.
Proof.
  induction n as [n IH|n IH|]; intros mrs k Hk H; cbn [iter_pos].
  - apply shr_1_below in H; [|assumption].
    apply IH in H; [|lia]. apply IH in H; [|lia].
    replace (Z.max (k - Zpos n~1) 0)
      with (Z.max (Z.max (Z.max (k - 1) 0 - Zpos n) 0 - Zpos n) 0) by lia.
    exact H.
  - apply IH in H; [|lia]. apply IH in H; [|lia].
    replace (Z.max (k - Zpos n~0) 0)
      with (Z.max (Z.max (k - Zpos n) 0 - Zpos n) 0) by lia.
    exact H.
  - apply shr_1_below; assumption.
Qed.

Lemma digits2_pos_bounds (p : positive) :
  2 ^ (Zpos (digits2_pos p) - 1) <= Zpos p < 2 ^ Zpos (digits2_pos p).
Proof.
  induction p as [p IH|p IH|]; cbn [digits2_pos].
  - rewrite Pos2Z.inj_succ.
    replace (Z.succ (Zpos (digits2_pos p)) - 1)
      with (Z.succ (Zpos (digits2_pos p) - 1)) by lia.
    rewrite !Z.pow_succ_r by lia. lia.
  - rewrite Pos2Z.inj_succ.
    replace (Z.succ (Zpos (digits2_pos p)) - 1)
      with (Z.succ (Zpos (digits2_pos p) - 1)) by lia.
    rewrite !Z.pow_succ_r by lia. lia.
  - cbn. lia.
Qed.

Lemma Zdigits2_le (m k : Z) :
  0 <= k -> 0 <= m < 2 ^ k -> Zdigits2 m <= k.
Proof.
  intros Hk [H0 Hlt]. destruct m as [|p|p]; cbn [Zdigits2]; [lia| |lia].
  destruct (digits2_pos_bounds p) as [Hlo _].
  assert (H : 2 ^ (Zpos (digits2_pos p) - 1) < 2 ^ k) by lia.
  apply Z.pow_lt_mono_r_iff in H; lia.
Qed.

Lemma round_nearest_even_le (m : Z) (l : location) :
  round_nearest_even m l <= m + 1.
Proof.
  unfold round_nearest_even.
  destruct l as [|[ | | ]]; try destruct (Z.even m); lia.
Qed.

Lemma fexp_eq (x : Z) : fexp prec emax x = Z.max (x - 53) (-1074).
Proof. reflexivity. Qed.

Lemma shr_m_of_loc (m : Z) (l : location) :
  shr_m (shr_record_of_loc m l) = m.
Proof. destruct l as [|[ | | ]]; reflexivity. Qed.

Lemma shr_fexp_cases (m e : Z) (l : location) (k : Z) :
  0 <= k -> 0 <= m < 2 ^ k ->
  let n := fexp prec emax (Zdigits2 m + e) - e in
  let r := shr_fexp prec emax m e l in
  (n <= 0 /\ shr_m (fst r) = m /\ snd r = e) \/
  (0 < n /\ snd r = e + n /\ 0 <= shr_m (fst r) < 2 ^ Z.max (k - n) 0).
Proof.
  intros Hk Hm. cbv zeta. unfold shr_fexp, shr.
  destruct (fexp prec emax (Zdigits2 m + e) - e) as [|p|p] eqn:Hn;
    cbn [fst snd].
  - left. rewrite shr_m_of_loc. lia.
  - right. split; [lia|]. split; [reflexivity|].
    apply iter_shr_1_below; [assumption|]. rewrite shr_m_of_loc. assumption.
  - left. rewrite shr_m_of_loc. lia.
Qed.

Lemma shr_fexp_exponent (m e : Z) (l : location) :
  snd (shr_fexp prec emax m e l) = e \/
  snd (shr_fexp prec emax m e l) = fexp prec emax (Zdigits2 m + e).
Proof.
  unfold shr_fexp, shr.
  destruct (fexp prec emax (Zdigits2 m + e) - e) as [|p|p] eqn:Hn;
    cbn [snd]; auto.
  right. lia.
Qed.

Lemma pow2_succ_gt (k m : Z) : 0 <= k -> m <= 2 ^ k -> m < 2 ^ (k + 1).
Proof.
  intros Hk H. rewrite Z.pow_add_r by lia. change (2 ^ 1) with 2.
  pose proof (Z.pow_pos_nonneg 2 k). lia.
Qed.

Lemma binary_round_aux_finite (s : bool) (q e : Z) (l : location) (k : Z) :
  0 <= k -> 0 <= q < 2 ^ k -> k + e <= 1023 -> e <= 971 ->
  forall s', binary_round_aux prec emax s q e l <> S754_infinity s'.
Proof.
  intros Hk Hq Hke He s'. unfold binary_round_aux.
  pose proof (shr_fexp_cases q e l k Hk Hq) as H1. cbv zeta in H1.
  pose proof (shr_fexp_nonneg q e l (proj1 Hq)) as H1n.
  pose proof (Zdigits2_le q k Hk Hq) as Hdq.
  destruct (shr_fexp prec emax q e l) as [mrs' e1]; cbn [fst snd] in H1, H1n.
  set (m1 := round_nearest_even (shr_m mrs') (loc_of_shr_record mrs')).
  pose proof (round_nearest_even_nonneg _ (loc_of_shr_record mrs') H1n) as Hm0.
  pose proof (round_nearest_even_le (shr_m mrs') (loc_of_shr_record mrs')) as Hm1.
  fold m1 in Hm0, Hm1.
  pose proof (shr_fexp_exponent m1 e1 loc_Exact) as H2.
  destruct (shr_fexp prec emax m1 e1 loc_Exact) as [mrs'' e2]; cbn [snd] in H2.
  assert (He2 : e2 <= 971).
  { rewrite fexp_eq in H1, H2.
    destruct H1 as [(Hn & Hm & ->) | (Hn & -> & Hm)].
    - assert (Hd : Zdigits2 m1 <= k + 1).
      { apply Zdigits2_le; [lia|]. split; [assumption|].
        apply pow2_succ_gt; lia. }
      lia.
    - assert (Hd : Zdigits2 m1
                   <= Z.max (k - (Z.max (Zdigits2 q + e - 53) (-1074) - e)) 0 + 1).
      { apply Zdigits2_le; [lia|]. split; [assumption|].
        apply pow2_succ_gt; lia. }
      lia. }
  destruct (shr_m mrs'') as [|p|p]; try discriminate.
  unfold emax, prec.
  destruct (Z.leb_spec e2 (1024 - 53)); [discriminate | lia].
Qed.

Lemma SFdiv_core_binary_by_2 (a : Z) :
  0 < a < 2 ^ 1024 ->
  exists q e l k,
    SFdiv_core_binary prec emax a 0 2 0 = (q, e, l) /\
    0 <= k /\ 0 <= q < 2 ^ k /\ k + e <= 1023 /\ e <= 971.
Proof.
  intros [Ha0 Ha]. unfold SFdiv_core_binary.
  destruct a as [|p|p]; try lia.
  destruct (digits2_pos_bounds p) as [Hlo Hhi].
  assert (Hd : Zpos (digits2_pos p) <= 1024).
  { assert (H : 2 ^ (Zpos (digits2_pos p) - 1) < 2 ^ 1024) by lia.
    apply Z.pow_lt_mono_r_iff in H; lia. }
  cbn [Zdigits2 digits2_pos Pos.succ].
  set (d := Zpos (digits2_pos p)) in *.
  change (IntDef.Z.min (fexp prec emax (d + 0 - (2 + 0))) (0 - 0))
    with (Z.min (fexp prec emax (d + 0 - (2 + 0))) 0).
  set (e' := Z.min (fexp prec emax (d + 0 - (2 + 0))) 0).
  assert (He' : e' <= 0) by (subst e'; lia).
  set (sh := 0 - 0 - e').
  set (m' := match sh with 0 => Zpos p | Zpos _ => Z.shiftl (Zpos p) sh | Zneg _ => 0 end).
  assert (Hm' : m' = Zpos p * 2 ^ sh).
  { subst m'. destruct sh as [|x|x] eqn:Hsh.
    - cbn. lia.
    - apply Z.shiftl_mul_pow2. lia.
    - lia. }
  assert (Hm'lt : 0 <= m' < 2 ^ (d + sh)).
  { rewrite Hm', Z.pow_add_r by lia.
    pose proof (Z.pow_pos_nonneg 2 sh). nia. }
  pose proof (Z.div_pos m' 2 (proj1 Hm'lt) eq_refl) as Hq0.
  assert (Hq1 : m' / 2 < 2 ^ (d + sh - 1)).
  { apply Z.div_lt_upper_bound; [lia|].
    rewrite <- Z.pow_succ_r by lia.
    replace (Z.succ (d + sh - 1)) with (d + sh) by lia. apply Hm'lt. }
  unfold Z.div in Hq0, Hq1.
  destruct (Z.div_eucl m' 2) as [q r]. cbn [fst] in Hq0, Hq1.
  exists q, e', (new_location 2 r), (d + sh - 1).
  split; [reflexivity|].
  repeat split; lia.
Qed.

(** ** True division *)

(** Sample quotients: [1920 / 2 == 960.0], [1 / 2 == 0.5],
    [-3 / 2 == -1.5], [1 / 3 == 0x1.5555555555555p-2], and the tie
    [(2**54 + 1) / 2], which rounds to the even [2.0**53]. *)
Example truediv_1920_2 :
  long_true_divide 1920 2 = Ok (Float (S754_finite false (15 * 2 ^ 49) (-43))).
Proof. vm_compute. reflexivity. Qed.

Example truediv_1_2 :
  long_true_divide 1 2 = Ok (Float (S754_finite false (2 ^ 52) (-53))).
Proof. vm_compute. reflexivity. Qed.

Example truediv_neg3_2 :
  long_true_divide (-3) 2 = Ok (Float (S754_finite true (3 * 2 ^ 51) (-52))).
Proof. vm_compute. reflexivity. Qed.

Example truediv_1_3 :
  long_true_divide 1 3
  = Ok (Float (S754_finite false 0x15555555555555 (-54))).
Proof. vm_compute. reflexivity. Qed.

Example truediv_tie_to_even :
  long_true_divide (2 ^ 54 + 1) 2 = long_true_divide (2 ^ 54) 2 /\
  long_true_divide (2 ^ 54) 2 = Ok (Float (S754_finite false (2 ^ 52) 1)).
Proof. split; vm_compute; reflexivity. Qed.

(** The largest width [vertices] can halve, and the first it cannot:
    [(2**1025 - 2**971 - 1) / 2] is the largest finite float, and
    [(2**1025 - 2**971) / 2] overflows. *)
Example truediv_overflow_threshold :
  long_true_divide (2 ^ 1025 - 2 ^ 971 - 1) 2
  = Ok (Float (S754_finite false (2 ^ 53 - 1) 971)) /\
  long_true_divide (2 ^ 1025 - 2 ^ 971) 2 = Raise OverflowError.
Proof. split; vm_compute; reflexivity. Qed.

Example truediv_by_zero :
  long_true_divide 1920 0 = Raise ZeroDivisionError.
Proof. reflexivity. Qed.

(** Whatever [a / b] returns is a float, never an int, and it is a zero or
    a finite number. *)
Lemma long_true_divide_float (a b : Z) (n : num) :
  long_true_divide a b = Ok n ->
  exists f, n = Float f /\ float_is_finite f = true.
Proof.
  unfold long_true_divide. intros H.
  destruct b as [|b|b]; [discriminate | |];
    (destruct a as [|a|a];
     [ injection H as <-; eexists; split; reflexivity | |]).
  all: match type of H with
       | context [SFdiv_core_binary prec emax ?x 0 ?y 0] =>
           pose proof (SFdiv_core_binary_nonneg x 0 y 0) as Hq;
           destruct (SFdiv_core_binary prec emax x 0 y 0) as [[q e'] l]
       end;
       cbn [fst] in Hq;
       match type of H with
       | context [binary_round_aux prec emax ?s ?m ?e ?l] =>
           pose proof (binary_round_aux_not_nan s m e l) as Hnan;
           destruct (binary_round_aux prec emax s m e l) as [z|z| |z p e0]
       end;
       try discriminate;
       try (injection H as <-; eexists; split; reflexivity);
       exfalso; apply Hnan; [apply Hq; cbn; lia | reflexivity].
Qed.

(** [w / 2] returns for every int below [2 ** 1024] in magnitude. *)
Lemma long_true_divide_by_2_returns (w : Z) :
  Z.abs w < 2 ^ 1024 ->
  exists f, long_true_divide w 2 = Ok (Float f).
Proof.
  intros Hw. unfold long_true_divide.
  destruct w as [|p|p]; [eexists; reflexivity | |].
  all: destruct (SFdiv_core_binary_by_2 (Zpos p)) as (q & e & l & k & Hdiv & Hk & Hq & Hke & He);
       [split; [reflexivity | exact Hw]|];
       cbn [Z.abs]; rewrite Hdiv;
       match goal with
       | |- context [binary_round_aux prec emax ?s q e l] =>
           pose proof (binary_round_aux_finite s q e l k Hk Hq Hke He) as Hfin;
           destruct (binary_round_aux prec emax s q e l) as [z|z| |z m e0]
       end;
       try (eexists; reflexivity);
       exfalso; eapply Hfin; reflexivity.
Qed.

(** A finite float compares equal to itself. *)
Lemma SFeqb_refl (f : spec_float) :
  float_is_finite f = true -> SFeqb f f = true.
Proof.
  destruct f as [s|s| |s m e]; try discriminate; intros _.
  - reflexivity.
  - unfold SFeqb, SFcompare.
    rewrite Z.compare_refl.
    change (Pos.compare_cont Eq m m) with (Pos.compare m m).
    rewrite Pos.compare_refl. destruct s; reflexivity.
Qed.

(** Two int-int tuples are equal exactly when their coordinates are. *)
Lemma tuple_eqb_int (a b c d : Z) :
  tuple_eqb (Int a, Int b) (Int c, Int d) = (a =? c) && (b =? d).
Proof. reflexivity. Qed.

(** ** The shape of [vertices] *)

(** Only the midfield tuple can raise: [vertices] is the true division
    followed by the rest of the display. *)
Lemma vertices_unfold (self : FootballFieldConfiguration) :
  vertices self =
  (half <- long_true_divide (width self) 2 ;; Ok (vertex_list self half)).
Proof.
  unfold vertices, pt. cbn [sequence bind].
  destruct (long_true_divide (width self) 2); reflexivity.
Qed.

Lemma vertices_inv (self : FootballFieldConfiguration) (v : list vertex) :
  vertices self = Ok v ->
  exists f,
    long_true_divide (width self) 2 = Ok (Float f) /\
    float_is_finite f = true /\
    v = vertex_list self (Float f).
Proof.
  rewrite vertices_unfold. intros H.
  destruct (long_true_divide (width self) 2) as [half|e] eqn:Hdiv;
    [|discriminate].
  destruct (long_true_divide_float _ _ _ Hdiv) as (f & -> & Hfin).
  injection H as <-. exists f. auto.
Qed.

(** The only exception [vertices] can raise is the division's overflow. *)
Lemma vertices_raise (self : FootballFieldConfiguration) (e : exn) :
  vertices self = Raise e -> e = OverflowError.
Proof.
  rewrite vertices_unfold. unfold long_true_divide.
  destruct (width self) as [|w|w]; cbn -[SFdiv_core_binary binary_round_aux];
    try discriminate.
  all: destruct (SFdiv_core_binary _ _ _ _ _ _) as [[m e'] l];
       destruct (binary_round_aux _ _ _ _ _ _);
       cbn; intros H; try discriminate; injection H as <-; reflexivity.
Qed.

(** Whenever [vertices] returns, it returns 32 tuples. *)
Lemma vertices_length (self : FootballFieldConfiguration) (v : list vertex) :
  vertices self = Ok v -> List.length v = 32%nat.
Proof.
  intros H. destruct (vertices_inv _ _ H) as (f & _ & _ & ->). reflexivity.
Qed.

(** [vertices] returns its 32 tuples for every width below [2 ** 1024] in
    magnitude, whatever the other scalars are. *)
Lemma vertices_returns (self : FootballFieldConfiguration) :
  Z.abs (width self) < 2 ^ 1024 ->
  exists v, vertices self = Ok v /\ List.length v = 32%nat.
Proof.
  intros Hw. destruct (long_true_divide_by_2_returns _ Hw) as (f & Hf).
  exists (vertex_list self (Float f)).
  rewrite vertices_unfold, Hf. split; reflexivity.
Qed.

(** The vertex list compares equal to itself item by item. *)
Lemma list_eqb_vertex_list (self : FootballFieldConfiguration) (f : spec_float) :
  float_is_finite f = true ->
  list_eqb (vertex_list self (Float f)) (vertex_list self (Float f)) = true.
Proof.
  intros Hf. unfold vertex_list. cbn [list_eqb]. unfold tuple_eqb.
  cbn [fst snd num_eqb].
  rewrite (SFeqb_refl f Hf), !Z.eqb_refl. reflexivity.
Qed.

(** [vertices] reads the eight geometric scalars and nothing else. *)
Lemma vertices_ext (c1 c2 : FootballFieldConfiguration) :
  agree_but_depth_and_hash_length c1 c2 -> vertices c1 = vertices c2.
Proof.
  intros (Hw & Hl & Hg1 & Hg2 & Hh & Hy & Hf & Hn).
  unfold vertices. rewrite Hw, Hl, Hg1, Hg2, Hh, Hy, Hf, Hn. reflexivity.
Qed.

(** Python's [==] holds between the sequences two equal outcomes carry. *)
Lemma vertices_py_equal (c1 c2 : FootballFieldConfiguration)
    (v1 v2 : list vertex) :
  vertices c1 = vertices c2 ->
  vertices c1 = Ok v1 -> vertices c2 = Ok v2 -> list_eqb v1 v2 = true.
Proof.
  intros Heq H1 H2. rewrite Heq, H2 in H1. injection H1 as <-.
  destruct (vertices_inv _ _ H2) as (f & _ & Hfin & ->).
  apply list_eqb_vertex_list, Hfin.
Qed.

Lemma agrees_int (a b c d : Z) :
  a = c -> b = d -> tuple_eqb (Int a, Int b) (Int c, Int d) = true.
Proof.
  intros -> ->. rewrite tuple_eqb_int, !Z.eqb_refl. reflexivity.
Qed.

Lemma differs_int (a b c d : Z) :
  b <> d -> negb (tuple_eqb (Int a, Int b) (Int c, Int d)) = true.
Proof.
  intros H. rewrite tuple_eqb_int.
  apply Z.eqb_neq in H. rewrite H, andb_false_r. reflexivity.
Qed.

(** The midfield tuple always carries a float in its second coordinate. *)
Lemma midfield_vertex_is_float (self : FootballFieldConfiguration)
    (v : list vertex) :
  vertices self = Ok v ->
  exists f, at_pos v 11 = Some (Int (fifty_yard_line self), Float f).
Proof.
  intros H. destruct (vertices_inv _ _ H) as (f & _ & _ & ->).
  exists f. reflexivity.
Qed.

(** The literal sequences of a construction that overrides scalars only. *)
Lemma Construct_literals (o : scalar_overrides) :
  edges (Construct o) = default_edges /\
  labels (Construct o) = default_labels /\
  colors (Construct o) = default_colors.
Proof. repeat split. Qed.

(** ** The claims *)

(** C1: constructed with no overrides, the ten scalars take the documented
    defaults and [vertices] returns exactly 32 points, the 1st being
    [(0, 0)], the 9th [(2160, 0)], and the 11th comparing equal to
    [(2160, 960)]. *)
Theorem C1_default_vertices :
  let c := Construct no_overrides in
  (width c, length c, end_zone_depth c, goal_line_1 c, goal_line_2 c)
    = (1920, 4320, 360, 360, 3960) /\
  (hash_distance_from_sideline c, hash_length c, yard_line_interval c,
   fifty_yard_line c, number_distance_from_sideline c)
    = (720, 24, 180, 2160, 324) /\
  exists v p11,
    vertices c = Ok v /\
    List.length v = 32%nat /\
    at_pos v 1 = Some (Int 0, Int 0) /\
    at_pos v 9 = Some (Int 2160, Int 0) /\
    at_pos v 11 = Some p11 /\
    tuple_eqb p11 (Int 2160, Int 960) = true.
Proof.
  cbv zeta. split; [reflexivity|]. split; [reflexivity|].
  eexists. eexists.
  split; [vm_compute; reflexivity|].
  repeat split; vm_compute; reflexivity.
Qed.

(** C2, at the failing input [FootballFieldConfiguration(width=1)]: the
    11th vertex is [(2160, 0.5)]; its second coordinate is a float and is
    not equal to any integer. *)
Theorem C2_midfield_vertex_not_integer :
  exists v half,
    vertices (Construct (with_width 1)) = Ok v /\
    at_pos v 11 = Some (Int 2160, Float half) /\
    half = S754_finite false 4503599627370496 (-53) /\
    is_int (Float half) = false /\
    is_integral (Float half) = false /\
    (forall z, num_eqb (Float half) (Int z) = false).
Proof.
  eexists. eexists.
  split; [vm_compute; reflexivity|].
  split; [reflexivity|].
  split; [reflexivity|].
  split; [reflexivity|].
  split; [vm_compute; reflexivity|].
  intros z. reflexivity.
Qed.

(** C3: for every construction that passes scalar arguments, [labels] and
    [colors] have 32 items and every sequence [vertices] returns has 32
    items; it returns one for every width below [2 ** 1024] in
    magnitude. *)
Theorem C3_sequences_have_32_items (o : scalar_overrides) :
  let c := Construct o in
  List.length (labels c) = 32%nat /\
  List.length (colors c) = 32%nat /\
  (forall v, vertices c = Ok v -> List.length v = 32%nat) /\
  (Z.abs (width c) < 2 ^ 1024 ->
   exists v, vertices c = Ok v /\ List.length v = 32%nat).
Proof.
  cbv zeta. destruct (Construct_literals o) as (_ & -> & ->).
  split; [reflexivity|]. split; [reflexivity|]. split.
  - apply vertices_length.
  - apply vertices_returns.
Qed.

(** The three lengths on a field of width 1921. *)
Lemma C3_sequences_have_32_items_witness :
  let c := Construct (with_width 1921) in
  exists v,
    vertices c = Ok v /\
    List.length v = 32%nat /\
    List.length (labels c) = 32%nat /\
    List.length (colors c) = 32%nat.
Proof.
  cbv zeta.
  destruct (C3_sequences_have_32_items (with_width 1921))
    as (Hlabels & Hcolors & Hlen & Hret).
  destruct Hret as (v & Hv & _); [vm_compute; reflexivity|].
  exists v. split; [exact Hv|].
  split; [exact (Hlen v Hv)|].
  split; [exact Hlabels | exact Hcolors].
Defined.

(** C4: every pair of the default [edges] has both components in
    [[1, 32]], and [(9, 10)] and [(1, 3)] are among the pairs. *)
Theorem C4_default_edges_in_range (o : scalar_overrides) :
  Forall (fun e => 1 <= fst e <= 32 /\ 1 <= snd e <= 32) (edges (Construct o)) /\
  In (9, 10) (edges (Construct o)) /\
  In (1, 3) (edges (Construct o)).
Proof.
  destruct (Construct_literals o) as (-> & _ & _).
  split; [|split].
  - unfold default_edges. repeat constructor; cbn; lia.
  - unfold default_edges. cbn. tauto.
  - left. reflexivity.
Qed.

(** C5 as stated fails: with widths 1920 and 1921 and every other scalar
    at its default, the vertices at positions 12, 14 and 16 (the top hash
    marks) are the same in both sequences although the claim lists them
    as differing, and those at positions 19 and 31 differ although the
    claim has the sequences differ at positions 2 to 17 only. *)
Lemma C5_width_change_counterexample :
  let c1 := Construct (with_width 1920) in
  let c2 := Construct (with_width 1921) in
  differ_only_in_width c1 c2 /\
  exists v1 v2,
    vertices c1 = Ok v1 /\ vertices c2 = Ok v2 /\
    agrees_at v1 v2 12 = true /\
    agrees_at v1 v2 14 = true /\
    agrees_at v1 v2 16 = true /\
    differs_at v1 v2 19 = true /\
    differs_at v1 v2 31 = true.
Proof.
  cbv zeta. split.
  - unfold differ_only_in_width. cbn. repeat split; discriminate.
  - eexists. eexists.
    split; [vm_compute; reflexivity|].
    split; [vm_compute; reflexivity|].
    repeat split; vm_compute; reflexivity.
Qed.

(** C5, amended: the vertices returned for two instances that differ only
    in [width] differ at positions 2, 4, 6, 8, 10, 13, 15, 17, 19, 21, 23, 25,
    27, 29 and 31 and agree at positions 1, 3, 5, 7, 9, 12, 14, 16, 18,
    20, 22, 24, 26, 28, 30 and 32; nothing is said of position 11. *)
Theorem C5_width_change_frame (c1 c2 : FootballFieldConfiguration)
    (v1 v2 : list vertex) :
  differ_only_in_width c1 c2 ->
  vertices c1 = Ok v1 ->
  vertices c2 = Ok v2 ->
  Forall (fun i => differs_at v1 v2 i = true)
    [2; 4; 6; 8; 10; 13; 15; 17; 19; 21; 23; 25; 27; 29; 31]%nat /\
  Forall (fun i => agrees_at v1 v2 i = true)
    [1; 3; 5; 7; 9; 12; 14; 16; 18; 20; 22; 24; 26; 28; 30; 32]%nat.
Proof.
  intros (Hw & Hl & _ & Hg1 & Hg2 & Hh & _ & Hy & Hf & Hn) H1 H2.
  destruct (vertices_inv _ _ H1) as (f1 & _ & _ & ->).
  destruct (vertices_inv _ _ H2) as (f2 & _ & _ & ->).
  split.
  - repeat constructor;
      unfold differs_at, vertex_list; cbn [at_pos nth_error];
      apply differs_int; lia.
  - repeat constructor;
      unfold agrees_at, vertex_list; cbn [at_pos nth_error];
      apply agrees_int; lia.
Qed.

(** The frame of a width change, between widths 1920 and 1921. *)
Lemma C5_width_change_frame_witness :
  exists v1 v2,
    vertices (Construct (with_width 1920)) = Ok v1 /\
    vertices (Construct (with_width 1921)) = Ok v2 /\
    Forall (fun i => differs_at v1 v2 i = true)
      [2; 4; 6; 8; 10; 13; 15; 17; 19; 21; 23; 25; 27; 29; 31]%nat /\
    Forall (fun i => agrees_at v1 v2 i = true)
      [1; 3; 5; 7; 9; 12; 14; 16; 18; 20; 22; 24; 26; 28; 30; 32]%nat.
Proof.
  eexists. eexists.
  split; [vm_compute; reflexivity|].
  split; [vm_compute; reflexivity|].
  apply (C5_width_change_frame
           (Construct (with_width 1920)) (Construct (with_width 1921))).
  - unfold differ_only_in_width. cbn. repeat split; discriminate.
  - vm_compute; reflexivity.
  - vm_compute; reflexivity.
Defined.

(** C6: whatever scalar overrides two constructions pass, their [edges],
    [labels] and [colors] are identical: each is the literal sequence of
    its factory. *)
Theorem C6_literals_independent_of_scalars (o1 o2 : scalar_overrides) :
  edges (Construct o1) = edges (Construct o2) /\
  labels (Construct o1) = labels (Construct o2) /\
  colors (Construct o1) = colors (Construct o2).
Proof.
  destruct (Construct_literals o1) as (-> & -> & ->).
  destruct (Construct_literals o2) as (-> & -> & ->).
  repeat split.
Qed.

(** C7, at the failing input [FootballFieldConfiguration(width=2**1025)]:
    construction succeeds and stores the width unchecked, but [vertices]
    raises [OverflowError] at the true division of the midfield tuple. *)
Theorem C7_vertices_raises_on_huge_width :
  let c := Construct (with_width (2 ^ 1025)) in
  width c = 2 ^ 1025 /\
  long_true_divide (width c) 2 = Raise OverflowError /\
  vertices c = Raise OverflowError.
Proof.
  cbv zeta. repeat split; vm_compute; reflexivity.
Qed.

(** C8: two instances whose ten scalar attributes have identical values
    give identical outcomes of [vertices], and the sequences they return
    compare equal. *)
Theorem C8_vertices_deterministic (c1 c2 : FootballFieldConfiguration) :
  same_scalars c1 c2 ->
  vertices c1 = vertices c2 /\
  (forall v1 v2,
      vertices c1 = Ok v1 -> vertices c2 = Ok v2 -> list_eqb v1 v2 = true).
Proof.
  intros (Hw & Hl & _ & Hg1 & Hg2 & Hh & _ & Hy & Hf & Hn).
  assert (Heq : vertices c1 = vertices c2)
    by (apply vertices_ext; repeat split; assumption).
  split; [exact Heq|].
  intros v1 v2. apply vertices_py_equal, Heq.
Qed.

(** Determinism, between the default construction and one that passes
    the default width and length explicitly and overrides [edges]. *)
Lemma C8_vertices_deterministic_witness :
  let c1 := Construct no_overrides in
  let c2 := init {|
    arg_width := Some 1920;
    arg_length := Some 4320;
    arg_end_zone_depth := None;
    arg_goal_line_1 := None;
    arg_goal_line_2 := None;
    arg_hash_distance_from_sideline := None;
    arg_hash_length := None;
    arg_yard_line_interval := None;
    arg_fifty_yard_line := None;
    arg_number_distance_from_sideline := None;
    arg_edges := Some [];
    arg_labels := None;
    arg_colors := None
  |} in
  same_scalars c1 c2 /\
  vertices c1 = vertices c2 /\
  (forall v1 v2,
      vertices c1 = Ok v1 -> vertices c2 = Ok v2 -> list_eqb v1 v2 = true).
Proof.
  cbv zeta.
  assert (H : same_scalars (Construct no_overrides)
                (init {|
                   arg_width := Some 1920;
                   arg_length := Some 4320;
                   arg_end_zone_depth := None;
                   arg_goal_line_1 := None;
                   arg_goal_line_2 := None;
                   arg_hash_distance_from_sideline := None;
                   arg_hash_length := None;
                   arg_yard_line_interval := None;
                   arg_fifty_yard_line := None;
                   arg_number_distance_from_sideline := None;
                   arg_edges := Some [];
                   arg_labels := None;
                   arg_colors := None
                 |}))
    by (unfold same_scalars; cbn; repeat split; reflexivity).
  split; [exact H|].
  exact (C8_vertices_deterministic _ _ H).
Defined.

(** C9: two constructions that agree on every scalar except possibly
    [end_zone_depth] and [hash_length] give identical [vertices],
    [edges], [labels] and [colors]. *)
Theorem C9_depth_and_hash_length_unused (o1 o2 : scalar_overrides) :
  agree_but_depth_and_hash_length (Construct o1) (Construct o2) ->
  vertices (Construct o1) = vertices (Construct o2) /\
  (forall v1 v2,
      vertices (Construct o1) = Ok v1 -> vertices (Construct o2) = Ok v2 ->
      list_eqb v1 v2 = true) /\
  edges (Construct o1) = edges (Construct o2) /\
  labels (Construct o1) = labels (Construct o2) /\
  colors (Construct o1) = colors (Construct o2).
Proof.
  intros H.
  pose proof (vertices_ext _ _ H) as Heq.
  split; [exact Heq|].
  split; [intros v1 v2; apply vertices_py_equal, Heq|].
  repeat split.
Qed.

(** Independence, between the defaults and [end_zone_depth=0,
    hash_length=1000]. *)
Lemma C9_depth_and_hash_length_unused_witness :
  let o1 := no_overrides in
  let o2 := {|
    o_width := None;
    o_length := None;
    o_end_zone_depth := Some 0;
    o_goal_line_1 := None;
    o_goal_line_2 := None;
    o_hash_distance_from_sideline := None;
    o_hash_length := Some 1000;
    o_yard_line_interval := None;
    o_fifty_yard_line := None;
    o_number_distance_from_sideline := None
  |} in
  end_zone_depth (Construct o1) <> end_zone_depth (Construct o2) /\
  hash_length (Construct o1) <> hash_length (Construct o2) /\
  vertices (Construct o1) = vertices (Construct o2) /\
  edges (Construct o1) = edges (Construct o2).
Proof.
  cbv zeta.
  split; [cbn; discriminate|].
  split; [cbn; discriminate|].
  match goal with
  | |- vertices (Construct ?a) = vertices (Construct ?b) /\ _ =>
      destruct (C9_depth_and_hash_length_unused a b) as (Hv & _ & He & _ & _)
  end.
  - unfold agree_but_depth_and_hash_length. cbn. repeat split; reflexivity.
  - split; [exact Hv | exact He].
Defined.

(** C10: in every sequence [vertices] returns, each top/bottom pair at
    positions (12,13), (14,15), (16,17), (18,19), (20,21), (22,23),
    (24,25), (26,27), (28,29) and (30,31) has equal first coordinates and
    second coordinates that sum to [width]. *)
Theorem C10_hash_pairs_mirrored (self : FootballFieldConfiguration)
    (v : list vertex) :
  vertices self = Ok v ->
  Forall (mirrored (width self) v) mirror_pairs.
Proof.
  intros H. destruct (vertices_inv _ _ H) as (f & _ & _ & ->).
  unfold mirror_pairs.
  repeat constructor;
    unfold mirrored, vertex_list; cbn [fst snd at_pos nth_error];
    do 3 eexists; (split; [reflexivity|]); (split; [reflexivity|]); lia.
Qed.

(** The mirrored pairs of a field of odd width 1921. *)
Lemma C10_hash_pairs_mirrored_witness :
  exists v,
    vertices (Construct (with_width 1921)) = Ok v /\
    Forall (mirrored 1921 v) mirror_pairs.
Proof.
  eexists. split; [vm_compute; reflexivity|].
  apply (C10_hash_pairs_mirrored (Construct (with_width 1921))).
  vm_compute; reflexivity.
Defined.

(** ** Rounding to binary64: exact halves and overflow *)

Lemma Zdigits2_bounds (m : Z) :
  0 < m -> 2 ^ (Zdigits2 m - 1) <= m < 2 ^ Zdigits2 m.
Proof.
  destruct m as [|p|p]; try lia. intros _. apply digits2_pos_bounds.
Qed.

Lemma Zdigits2_unique (m k : Z) :
  2 ^ (k - 1) <= m < 2 ^ k -> 0 < m -> Zdigits2 m = k.
Proof.
  intros [Hlo Hhi] Hm.
  destruct (Zdigits2_bounds m Hm) as [Dlo Dhi].
  assert (Hd : 0 < Zdigits2 m) by (destruct m; cbn; lia).
  assert (Hk : 0 < k).
  { destruct (Z.ltb_spec 0 k) as [|Hle]; [assumption|].
    assert (2 ^ k <= 1).
    { destruct (Z.eq_dec k 0) as [->|]; [cbn; lia|].
      rewrite Z.pow_neg_r by lia. lia. }
    lia. }
  assert (H1 : 2 ^ (k - 1) < 2 ^ Zdigits2 m) by lia.
  assert (H2 : 2 ^ (Zdigits2 m - 1) < 2 ^ k) by lia.
  apply Z.pow_lt_mono_r_iff in H1; [|lia|lia].
  apply Z.pow_lt_mono_r_iff in H2; [|lia|lia].
  lia.
Qed.

Lemma iter_shr_1_div (n : positive) :
  forall mrs : shr_record,
    0 <= shr_m mrs ->
    shr_m (iter_pos shr_1 n mrs) = shr_m mrs / 2 ^ Zpos n.
Proof.
  induction n as [n IH|n IH|]; intros mrs H; cbn [iter_pos].
  - pose proof (shr_1_nonneg mrs H) as H1.
    pose proof (iter_pos_preserves (fun r => 0 <= shr_m r) shr_1
                  shr_1_nonneg n _ H1) as H2.
    rewrite IH, IH, shr_1_div2 by assumption.
    rewrite !Z.div_div by (try apply Z.pow_pos_nonneg; lia).
    f_equal. replace (Zpos n~1) with (1 + Zpos n + Zpos n) by lia.
    rewrite !Z.pow_add_r by lia. change (2 ^ 1) with 2. ring.
  - pose proof (iter_pos_preserves (fun r => 0 <= shr_m r) shr_1
                  shr_1_nonneg n _ H) as H2.
    rewrite IH, IH by assumption.
    rewrite !Z.div_div by (try apply Z.pow_pos_nonneg; lia).
    f_equal. replace (Zpos n~0) with (Zpos n + Zpos n) by lia.
    rewrite Z.pow_add_r by lia. ring.
  - rewrite shr_1_div2 by assumption. reflexivity.
Qed.

Lemma Zdigits2_ge (m k : Z) :
  0 < m -> 2 ^ (k - 1) <= m -> k <= Zdigits2 m.
Proof.
  intros Hm Hlo. destruct (Zdigits2_bounds m Hm) as [_ Dhi].
  assert (Hd : 0 < Zdigits2 m) by (destruct m; cbn; lia).
  destruct (Z.leb_spec k 1) as [|Hk]; [lia|].
  assert (H : 2 ^ (k - 1) < 2 ^ Zdigits2 m) by lia.
  apply Z.pow_lt_mono_r_iff in H; lia.
Qed.

Lemma round_nearest_even_ge (m : Z) (l : location) :
  m <= round_nearest_even m l.
Proof.
  unfold round_nearest_even.
  destruct l as [|[ | | ]]; try destruct (Z.even m); lia.
Qed.

Lemma shr_fexp_shift (m e : Z) (l : location) :
  0 <= m -> 0 < fexp prec emax (Zdigits2 m + e) - e ->
  snd (shr_fexp prec emax m e l) = fexp prec emax (Zdigits2 m + e) /\
  shr_m (fst (shr_fexp prec emax m e l))
  = m / 2 ^ (fexp prec emax (Zdigits2 m + e) - e).
Proof.
  intros Hm Hn. unfold shr_fexp, shr.
  destruct (fexp prec emax (Zdigits2 m + e) - e) as [|p|p] eqn:E; try lia.
  cbn [fst snd]. split; [lia|].
  rewrite iter_shr_1_div; rewrite shr_m_of_loc; [reflexivity | assumption].
Qed.

Lemma shr_fexp_noshift (m e : Z) (l : location) :
  fexp prec emax (Zdigits2 m + e) - e <= 0 ->
  shr_fexp prec emax m e l = (shr_record_of_loc m l, e).
Proof.
  intros Hn. unfold shr_fexp, shr.
  destruct (fexp prec emax (Zdigits2 m + e) - e) as [|p|p]; try lia; reflexivity.
Qed.

(** A mantissa whose value reaches [2 ** 1024] stays that large through a
    shift to the format's precision. *)
Lemma shr_fexp_big (m e : Z) (l : location) :
  0 < m -> 1025 <= Zdigits2 m + e ->
  0 < shr_m (fst (shr_fexp prec emax m e l)) /\
  972 <= snd (shr_fexp prec emax m e l) /\
  1025 <= Zdigits2 (shr_m (fst (shr_fexp prec emax m e l)))
          + snd (shr_fexp prec emax m e l).
Proof.
  intros Hm Hbig.
  destruct (Z.ltb_spec 0 (fexp prec emax (Zdigits2 m + e) - e)) as [Hn|Hn].
  - destruct (shr_fexp_shift m e l (Z.lt_le_incl _ _ Hm) Hn) as [-> ->].
    rewrite fexp_eq in *.
    rewrite Z.max_l in * by lia.
    replace (Zdigits2 m + e - 53 - e) with (Zdigits2 m - 53) by lia.
    destruct (Zdigits2_bounds m Hm) as [Dlo _].
    assert (Hq : 2 ^ 52 <= m / 2 ^ (Zdigits2 m - 53)).
    { apply Z.div_le_lower_bound; [apply Z.pow_pos_nonneg; lia|].
      rewrite <- Z.pow_add_r by lia.
      replace (Zdigits2 m - 53 + 52) with (Zdigits2 m - 1) by lia. exact Dlo. }
    assert (Hpos : 0 < m / 2 ^ (Zdigits2 m - 53)).
    { pose proof (Z.pow_pos_nonneg 2 52). lia. }
    split; [exact Hpos|]. split; [lia|].
    pose proof (Zdigits2_ge (m / 2 ^ (Zdigits2 m - 53)) 53 Hpos Hq). lia.
  - rewrite (shr_fexp_noshift m e l Hn). cbn [fst snd].
    rewrite shr_m_of_loc. rewrite fexp_eq in Hn. lia.
Qed.

Lemma Zdigits2_mono (m m' : Z) :
  0 < m -> m <= m' -> Zdigits2 m <= Zdigits2 m'.
Proof.
  intros Hm Hle. apply Zdigits2_ge; [lia|].
  destruct (Zdigits2_bounds m Hm). lia.
Qed.

Lemma binary_round_aux_overflow (s : bool) (q e : Z) (l : location) :
  0 < q -> 1025 <= Zdigits2 q + e ->
  binary_round_aux prec emax s q e l = S754_infinity s.
Proof.
  intros Hq Hbig. unfold binary_round_aux.
  destruct (shr_fexp_big q e l Hq Hbig) as (H1 & H2 & H3).
  destruct (shr_fexp prec emax q e l) as [mrs' e1]; cbn [fst snd] in H1, H2, H3.
  set (m1 := round_nearest_even (shr_m mrs') (loc_of_shr_record mrs')).
  pose proof (round_nearest_even_ge (shr_m mrs') (loc_of_shr_record mrs')) as Hge.
  fold m1 in Hge.
  assert (Hm1 : 0 < m1) by lia.
  pose proof (Zdigits2_mono _ _ H1 Hge) as Hmono.
  destruct (shr_fexp_big m1 e1 loc_Exact Hm1 ltac:(lia)) as (K1 & K2 & _).
  destruct (shr_fexp prec emax m1 e1 loc_Exact) as [mrs'' e2];
    cbn [fst snd] in K1, K2.
  destruct (shr_m mrs'') as [|p|p]; try lia.
  unfold emax, prec.
  destruct (Z.leb_spec e2 (1024 - 53)); [lia | reflexivity].
Qed.

(** [w / 2] raises for every int of magnitude [2 ** 1025] or more. *)
Lemma long_true_divide_by_2_overflows (w : Z) :
  2 ^ 1025 <= Z.abs w -> long_true_divide w 2 = Raise OverflowError.
Proof.
  intros Hw. unfold long_true_divide.
  assert (Hpos : 0 < Z.abs w) by (pose proof (Z.pow_pos_nonneg 2 1025); lia).
  assert (Hcore : exists q l,
             SFdiv_core_binary prec emax (Z.abs w) 0 2 0 = (q, 0, l) /\
             0 < q /\ 1025 <= Zdigits2 q + 0).
  { unfold SFdiv_core_binary.
    assert (Hd : 1026 <= Zdigits2 (Z.abs w)).
    { apply Zdigits2_ge; [assumption|]. exact Hw. }
    change (Zdigits2 2) with 2.
    set (d := Zdigits2 (Z.abs w)) in *.
    assert (He : IntDef.Z.min (fexp prec emax (d + 0 - (2 + 0))) (0 - 0) = 0).
    { change (IntDef.Z.min (fexp prec emax (d + 0 - (2 + 0))) (0 - 0))
        with (Z.min (fexp prec emax (d + 0 - (2 + 0))) 0).
      rewrite fexp_eq. lia. }
    rewrite He. cbn [Z.sub Z.opp Z.add].
    assert (Hq : 2 ^ 1024 <= Z.abs w / 2).
    { apply Z.div_le_lower_bound; [lia|].
      change (2 * 2 ^ 1024) with (2 ^ 1025). exact Hw. }
    unfold Z.div in Hq.
    destruct (Z.div_eucl (Z.abs w) 2) as [q r]; cbn [fst] in Hq.
    assert (Hq0 : 0 < q) by (pose proof (Z.pow_pos_nonneg 2 1024); lia).
    exists q, (new_location 2 r). split; [reflexivity|]. split; [exact Hq0|].
    pose proof (Zdigits2_ge q 1025 Hq0 Hq). lia. }
  destruct Hcore as (q & l & Hcore & Hq0 & Hbig).
  destruct w as [|p|p]; [cbn in Hpos; lia | |];
    change (Z.abs 2) with 2;
    rewrite Hcore, (binary_round_aux_overflow _ q 0 l Hq0 Hbig); reflexivity.
Qed.

Lemma div_eucl_pair (a b : Z) : Z.div_eucl a b = (a / b, a mod b).
Proof. unfold Z.div, Z.modulo. destruct (Z.div_eucl a b). reflexivity. Qed.

Lemma SFdiv_core_binary_by_2_small (a : Z) :
  0 < a < 2 ^ 53 ->
  SFdiv_core_binary prec emax a 0 2 0
  = (a * 2 ^ (54 - Zdigits2 a), Zdigits2 a - 55, loc_Exact).
Proof.
  intros [Ha0 Ha].
  assert (Hd : 1 <= Zdigits2 a <= 53).
  { split; [destruct a; cbn; lia|]. apply Zdigits2_le; lia. }
  unfold SFdiv_core_binary. change (Zdigits2 2) with 2.
  set (d := Zdigits2 a) in *.
  change (IntDef.Z.min (fexp prec emax (d + 0 - (2 + 0))) (0 - 0))
    with (Z.min (fexp prec emax (d + 0 - (2 + 0))) 0).
  rewrite fexp_eq.
  replace (Z.min (Z.max (d + 0 - (2 + 0) - 53) (-1074)) 0) with (d - 55) by lia.
  replace (0 - 0 - (d - 55)) with (55 - d) by lia.
  destruct (55 - d) as [|sh|sh] eqn:Hsh; try lia.
  rewrite Z.shiftl_mul_pow2 by lia. rewrite <- Hsh.
  replace (55 - d) with (Z.succ (54 - d)) by lia.
  rewrite Z.pow_succ_r by lia.
  replace (a * (2 * 2 ^ (54 - d))) with (a * 2 ^ (54 - d) * 2) by ring.
  rewrite div_eucl_pair, Z.div_mul, Z.mod_mul by lia.
  reflexivity.
Qed.

Lemma binary_round_aux_exact (s : bool) (x : positive) (e : Z) :
  2 ^ 52 <= Zpos x < 2 ^ 53 -> -1075 <= e -> e + 1 <= 971 ->
  binary_round_aux prec emax s (Zpos x~0) e loc_Exact
  = S754_finite s x (e + 1).
Proof.
  intros Hx He1 He2. unfold binary_round_aux.
  assert (D2 : Zdigits2 (Zpos x~0) = 54).
  { apply Zdigits2_unique; [|lia].
    change (2 ^ (54 - 1)) with (2 * 2 ^ 52). change (2 ^ 54) with (2 * 2 ^ 53).
    lia. }
  assert (D1 : Zdigits2 (Zpos x) = 53).
  { apply Zdigits2_unique; [|lia]. exact Hx. }
  assert (S1 : shr_fexp prec emax (Zpos x~0) e loc_Exact
               = ({| shr_m := Zpos x; shr_r := false; shr_s := false |}, e + 1)).
  { unfold shr_fexp. rewrite D2, fexp_eq.
    replace (Z.max (54 + e - 53) (-1074) - e) with 1 by lia. reflexivity. }
  rewrite S1. cbn [shr_m loc_of_shr_record round_nearest_even].
  rewrite shr_fexp_noshift by (rewrite D1, fexp_eq; lia).
  cbn [shr_m shr_record_of_loc].
  unfold emax, prec.
  destruct (Z.leb_spec (e + 1) (1024 - 53)); [reflexivity | lia].
Qed.

(** [w / 2] is exact below [2 ** 53]: the float returned has mantissa
    [|w| * 2 ** (53 - d)] and exponent [d - 54], [d] being the bit length
    of [w]. *)
Lemma long_true_divide_by_2_exact (w : Z) :
  0 < Z.abs w < 2 ^ 53 ->
  long_true_divide w 2
  = Ok (Float (S754_finite (w <? 0)
                 (Z.to_pos (Z.abs w * 2 ^ (53 - Zdigits2 (Z.abs w))))
                 (Zdigits2 (Z.abs w) - 54))).
Proof.
  intros Hw.
  pose proof (SFdiv_core_binary_by_2_small (Z.abs w) Hw) as Hcore.
  destruct (Zdigits2_bounds (Z.abs w) (proj1 Hw)) as [Dlo Dhi].
  assert (Hd : 1 <= Zdigits2 (Z.abs w) <= 53).
  { split; [destruct (Z.abs w); cbn; lia|]. apply Zdigits2_le; lia. }
  set (d := Zdigits2 (Z.abs w)) in *.
  set (P := 2 ^ (53 - d)).
  assert (HP : 0 < P) by (apply Z.pow_pos_nonneg; lia).
  assert (Hx : 2 ^ 52 <= Z.abs w * P < 2 ^ 53).
  { replace 52 with (d - 1 + (53 - d)) by lia.
    replace 53 with (d + (53 - d)) at 2 by lia.
    rewrite !Z.pow_add_r by lia. fold P. nia. }
  assert (Hxpos : 0 < Z.abs w * P) by nia.
  destruct (Z.abs w * P) as [|x|x] eqn:Ex; try lia.
  assert (H2 : Z.abs w * 2 ^ (54 - d) = Zpos x~0).
  { replace (54 - d) with (Z.succ (53 - d)) by lia.
    rewrite Z.pow_succ_r by lia. fold P.
    replace (Z.abs w * (2 * P)) with (2 * (Z.abs w * P)) by ring.
    rewrite Ex. reflexivity. }
  rewrite H2 in Hcore.
  pose proof (binary_round_aux_exact (w <? 0) x (d - 55) Hx
                ltac:(lia) ltac:(lia)) as Hround.
  replace (d - 55 + 1) with (d - 54) in Hround by lia.
  unfold long_true_divide. change (Z.abs 2) with 2.
  destruct w as [|p|p]; [cbn in Hw; lia | |];
    rewrite Hcore; cbn [Z.ltb Z.compare xorb] in *;
    rewrite Hround; reflexivity.
Qed.

Lemma float_as_integer_half (s : bool) (a d : Z) :
  0 < a -> 1 <= d <= 53 ->
  float_as_integer (S754_finite s (Z.to_pos (a * 2 ^ (53 - d))) (d - 54))
  = if Z.even a then Some (cond_Zopp s (a / 2)) else None.
Proof.
  intros Ha Hd. unfold float_as_integer.
  set (P := 2 ^ (53 - d)).
  assert (HP : 0 < P) by (apply Z.pow_pos_nonneg; lia).
  rewrite Z2Pos.id by nia.
  destruct (Z.leb_spec 0 (d - 54)); [lia|].
  replace (- (d - 54)) with (Z.succ (53 - d)) by lia.
  rewrite Z.pow_succ_r by lia. fold P.
  rewrite Z.mul_mod_distr_r by lia.
  rewrite Z.div_mul_cancel_r by lia.
  rewrite Zeven_mod.
  destruct (Z.eqb_spec (a mod 2) 0) as [E|E].
  - rewrite E. cbn. reflexivity.
  - destruct (Z.eqb_spec (a mod 2 * P) 0); [nia | reflexivity].
Qed.

(** ** Further properties of the geometry *)

Ltac read_points :=
  unfold endpoints, int_point, vertex_list;
  cbn [fst snd Z.to_nat Pos.to_nat Pos.iter_op Nat.add at_pos nth_error].

(** X1: every default edge joins two int points of the returned sequence that
    share a coordinate: each segment drawn is parallel to a sideline or
    to a goal line, for any values of the scalars, and no edge touches
    the float-valued midfield centre. *)
Theorem edges_axis_aligned (o : scalar_overrides) (v : list vertex) :
  vertices (Construct o) = Ok v ->
  Forall (axis_aligned v) (edges (Construct o)).
Proof.
  intros H. destruct (vertices_inv _ _ H) as (f & _ & _ & ->).
  destruct (Construct_literals o) as (-> & _ & _).
  unfold default_edges.
  repeat constructor; unfold axis_aligned; read_points;
    do 2 eexists; (split; [reflexivity|]); cbn [fst snd]; auto.
Qed.

Lemma edges_axis_aligned_witness :
  exists v,
    vertices (Construct (with_width 1921)) = Ok v /\
    Forall (axis_aligned v) (edges (Construct (with_width 1921))).
Proof.
  eexists. split; [vm_compute; reflexivity|].
  apply (edges_axis_aligned (with_width 1921)).
  vm_compute; reflexivity.
Defined.

(** X2: on a field with a positive width, goal lines strictly between the
    back lines and on either side of the 50-yard line, and hash marks
    off the centre line, every default edge joins two distinct points. *)
Theorem edges_proper_segments (o : scalar_overrides) (v : list vertex) :
  let c := Construct o in
  0 < width c ->
  0 < goal_line_1 c < fifty_yard_line c ->
  fifty_yard_line c < goal_line_2 c < length c ->
  2 * hash_distance_from_sideline c <> width c ->
  vertices c = Ok v ->
  Forall (proper_segment v) (edges c).
Proof.
  cbv zeta. destruct (Construct_literals o) as (-> & _ & _).
  generalize (Construct o) as c. intros c Hw Hg1 Hg2 Hh H.
  destruct (vertices_inv _ _ H) as (f & _ & _ & ->).
  unfold default_edges.
  repeat constructor; unfold proper_segment; read_points;
    do 2 eexists; (split; [reflexivity|]);
    intros E; injection E; lia.
Qed.

Lemma edges_proper_segments_witness :
  exists v,
    vertices (Construct no_overrides) = Ok v /\
    Forall (proper_segment v) (edges (Construct no_overrides)).
Proof.
  eexists. split; [vm_compute; reflexivity|].
  apply (edges_proper_segments no_overrides);
    cbn; try lia; try discriminate.
  vm_compute; reflexivity.
Defined.

(** Without those bounds the drawing degenerates silently: on a field of
    width 0 the back-line edge [(1, 2)] joins a point to itself. *)
Example zero_width_collapses_back_line :
  exists v p,
    vertices (Construct (with_width 0)) = Ok v /\
    endpoints v (1, 2) = Some (p, p).
Proof.
  eexists. eexists. split; vm_compute; reflexivity.
Qed.

(** X3: left and right halves mirror each other: the goal-line, goal-line
    hash and yard-line hash vertices pair up across
    [x = (goal_line_1 + goal_line_2) / 2], the corners across
    [x = length / 2], and when [fifty_yard_line] is the middle of the two
    goal lines its five vertices lie on the axis. *)
Theorem left_right_mirror (self : FootballFieldConfiguration)
    (v : list vertex) :
  vertices self = Ok v ->
  Forall (x_mirrored (goal_line_1 self + goal_line_2 self) v)
    goal_line_mirror_pairs /\
  Forall (x_mirrored (length self) v) corner_mirror_pairs /\
  (2 * fifty_yard_line self = goal_line_1 self + goal_line_2 self ->
   Forall (x_mirrored (goal_line_1 self + goal_line_2 self) v)
     midfield_positions).
Proof.
  intros H. destruct (vertices_inv _ _ H) as (f & _ & _ & ->).
  split; [|split; [|intros Hmid]];
    repeat constructor; unfold x_mirrored; read_points;
    do 3 eexists; (split; [reflexivity|]); (split; [reflexivity|]); lia.
Qed.

Lemma left_right_mirror_witness :
  exists v,
    vertices (Construct no_overrides) = Ok v /\
    Forall (x_mirrored 4320 v) goal_line_mirror_pairs /\
    Forall (x_mirrored 4320 v) corner_mirror_pairs /\
    Forall (x_mirrored 4320 v) midfield_positions.
Proof.
  eexists. split; [vm_compute; reflexivity|].
  destruct (left_right_mirror (Construct no_overrides)
              (vertex_list (Construct no_overrides)
                 (Float (S754_finite false 8444249301319680 (-43)))))
    as (H1 & H2 & H3); [vm_compute; reflexivity|].
  split; [exact H1|]. split; [exact H2|]. apply H3. reflexivity.
Defined.

(** X4: with non-negative dimensions, goal lines and 50-yard line within the
    length, the hash and number distances within the width and the
    outermost yard lines within the length, every int vertex lies inside
    the rectangle [[0, length] x [0, width]]. *)
Theorem vertices_inside_field (self : FootballFieldConfiguration)
    (v : list vertex) :
  0 <= width self ->
  0 <= goal_line_1 self <= length self ->
  0 <= goal_line_2 self <= length self ->
  0 <= fifty_yard_line self <= length self ->
  0 <= hash_distance_from_sideline self <= width self ->
  0 <= number_distance_from_sideline self <= width self ->
  0 <= yard_line_interval self ->
  goal_line_1 self + yard_line_interval self * 6 <= length self ->
  0 <= goal_line_2 self - yard_line_interval self * 6 ->
  vertices self = Ok v ->
  Forall (inside (length self) (width self) v) int_positions.
Proof.
  intros Hw Hg1 Hg2 Hf Hh Hn Hy Hl Hr H.
  destruct (vertices_inv _ _ H) as (f & _ & _ & ->).
  unfold int_positions.
  repeat constructor; unfold inside; read_points;
    do 2 eexists; (split; [reflexivity|]); lia.
Qed.

Lemma vertices_inside_field_witness :
  exists v,
    vertices (Construct no_overrides) = Ok v /\
    Forall (inside 4320 1920 v) int_positions.
Proof.
  eexists. split; [vm_compute; reflexivity|].
  apply (vertices_inside_field (Construct no_overrides)); cbn; try lia.
  vm_compute; reflexivity.
Defined.

(** X5: with a positive yard-line interval and the 50-yard line strictly
    between the 40-yard-side and 60-yard-side lines, the nine vertices of
    the top hash line come in strictly increasing distance from the back
    line, so no two of them coincide. *)
Theorem top_hash_row_increasing (self : FootballFieldConfiguration)
    (v : list vertex) :
  0 < yard_line_interval self ->
  goal_line_1 self + yard_line_interval self * 6 < fifty_yard_line self ->
  fifty_yard_line self < goal_line_2 self - yard_line_interval self * 6 ->
  vertices self = Ok v ->
  exists ps,
    row_points v top_hash_row = Some ps /\
    x_increasing ps /\
    Forall (fun p => snd p = hash_distance_from_sideline self) ps.
Proof.
  intros Hy Hl Hr H.
  destruct (vertices_inv _ _ H) as (f & _ & _ & ->).
  eexists. split; [reflexivity|].
  split.
  - cbn [x_increasing fst]. repeat split; lia.
  - repeat constructor.
Qed.

Lemma top_hash_row_increasing_witness :
  exists v ps,
    vertices (Construct no_overrides) = Ok v /\
    row_points v top_hash_row = Some ps /\
    x_increasing ps.
Proof.
  destruct (top_hash_row_increasing (Construct no_overrides)
              (vertex_list (Construct no_overrides)
                 (Float (S754_finite false 8444249301319680 (-43)))))
    as (ps & Hrow & Hinc & _);
    [cbn; lia | cbn; lia | cbn; lia | vm_compute; reflexivity |].
  eexists. exists ps. split; [vm_compute; reflexivity|].
  split; [exact Hrow | exact Hinc].
Defined.

(** X6: measuring the same field in a unit [k] times finer multiplies both
    coordinates of every int vertex by [k]. *)
Theorem vertices_rescale (k : Z) (self : FootballFieldConfiguration)
    (v v' : list vertex) :
  vertices self = Ok v ->
  vertices (rescale k self) = Ok v' ->
  Forall (rescaled_at k v v') int_positions.
Proof.
  intros H H'.
  destruct (vertices_inv _ _ H) as (f & _ & _ & ->).
  destruct (vertices_inv _ _ H') as (f' & _ & _ & ->).
  unfold int_positions.
  repeat constructor; unfold rescaled_at; read_points; unfold rescale;
    cbn [width length goal_line_1 goal_line_2 hash_distance_from_sideline
         yard_line_interval fifty_yard_line number_distance_from_sideline];
    do 2 eexists; (split; [reflexivity|]); do 2 f_equal; ring.
Qed.

Lemma vertices_rescale_witness :
  exists v v',
    vertices (Construct no_overrides) = Ok v /\
    vertices (rescale 3 (Construct no_overrides)) = Ok v' /\
    Forall (rescaled_at 3 v v') int_positions.
Proof.
  eexists. eexists.
  split; [vm_compute; reflexivity|].
  split; [vm_compute; reflexivity|].
  apply (vertices_rescale 3 (Construct no_overrides));
    vm_compute; reflexivity.
Defined.

(** X7: every vertex but the 11th is a pair of ints whatever the scalars
    are; the 11th always carries a finite float, never an int. *)
Theorem vertices_int_except_midfield (self : FootballFieldConfiguration)
    (v : list vertex) :
  vertices self = Ok v ->
  Forall (fun i => exists x y, at_pos v i = Some (Int x, Int y))
    int_positions /\
  exists f,
    at_pos v 11 = Some (Int (fifty_yard_line self), Float f) /\
    float_is_finite f = true.
Proof.
  intros H. destruct (vertices_inv _ _ H) as (f & _ & Hfin & ->).
  split.
  - unfold int_positions. repeat constructor; do 2 eexists; reflexivity.
  - exists f. split; [reflexivity | exact Hfin].
Qed.

Lemma vertices_int_except_midfield_witness :
  exists v,
    vertices (Construct (with_width 1)) = Ok v /\
    Forall (fun i => exists x y, at_pos v i = Some (Int x, Int y))
      int_positions.
Proof.
  eexists. split; [vm_compute; reflexivity|].
  apply (vertices_int_except_midfield (Construct (with_width 1))).
  vm_compute; reflexivity.
Defined.

(** ** The midfield centre and the failure of [vertices] *)

Lemma SFeqb_finite_inv (s1 s2 : bool) (m1 m2 : positive) (e1 e2 : Z) :
  SFeqb (S754_finite s1 m1 e1) (S754_finite s2 m2 e2) = true ->
  s1 = s2 /\ m1 = m2 /\ e1 = e2.
Proof.
  unfold SFeqb, SFcompare.
  change (Pos.compare_cont Eq m1 m2) with (Pos.compare m1 m2).
  destruct s1, s2; try discriminate;
    destruct (Z.compare_spec e1 e2); try discriminate;
    destruct (Pos.compare_spec m1 m2); try discriminate; auto.
Qed.

Lemma even_half (w : Z) :
  Z.even w = true ->
  Z.even (Z.abs w) = true /\ cond_Zopp (w <? 0) (Z.abs w / 2) = w / 2.
Proof.
  intros H. apply Z.even_spec in H. destruct H as [b ->].
  split.
  - apply Z.even_spec. exists (Z.abs b). lia.
  - replace (Z.abs (2 * b)) with (Z.abs b * 2) by lia.
    rewrite (Z.mul_comm 2 b), !Z.div_mul by lia.
    destruct (Z.ltb_spec (b * 2) 0); cbn [cond_Zopp]; lia.
Qed.

Lemma odd_abs (w : Z) : Z.even w = false -> Z.even (Z.abs w) = false.
Proof.
  intros H. destruct w; cbn in *; try assumption.
Qed.

(** X8: below [2 ** 53] in magnitude the midfield centre is exact: for an
    even width the 11th vertex compares equal to
    [(fifty_yard_line, width // 2)], and for an odd width its second
    coordinate equals no int. *)
Theorem midfield_centre_exact (self : FootballFieldConfiguration) :
  Z.abs (width self) < 2 ^ 53 ->
  exists v p,
    vertices self = Ok v /\
    at_pos v 11 = Some p /\
    (Z.even (width self) = true ->
     tuple_eqb p (Int (fifty_yard_line self), Int (width self / 2)) = true) /\
    (Z.even (width self) = false ->
     forall z, num_eqb (snd p) (Int z) = false).
Proof.
  intros Hw. rewrite vertices_unfold.
  destruct (Z.eq_dec (width self) 0) as [E0|Hne].
  - rewrite E0. cbn [long_true_divide bind].
    do 2 eexists. split; [reflexivity|]. split; [reflexivity|].
    split; [|discriminate].
    intros _. unfold tuple_eqb. cbn. rewrite Z.eqb_refl. reflexivity.
  - rewrite long_true_divide_by_2_exact by lia. cbn [bind].
    do 2 eexists. split; [reflexivity|]. split; [reflexivity|].
    assert (Hd : 1 <= Zdigits2 (Z.abs (width self)) <= 53).
    { split; [destruct (width self); cbn in *; lia|].
      apply Zdigits2_le; lia. }
    unfold tuple_eqb. cbn [fst snd num_eqb].
    rewrite float_as_integer_half by lia.
    split.
    + intros Hev. destruct (even_half _ Hev) as [-> ->].
      rewrite !Z.eqb_refl. reflexivity.
    + intros Hodd z. rewrite (odd_abs _ Hodd). reflexivity.
Qed.

Lemma midfield_centre_exact_witness :
  exists v p,
    vertices (Construct (with_width (-1920))) = Ok v /\
    at_pos v 11 = Some p /\
    tuple_eqb p (Int 2160, Int (-960)) = true.
Proof.
  destruct (midfield_centre_exact (Construct (with_width (-1920))))
    as (v & p & Hv & Hp & Heven & _); [vm_compute; reflexivity|].
  exists v, p. split; [exact Hv|]. split; [exact Hp|].
  apply Heven. reflexivity.
Defined.

Lemma scaled_mantissa_inj (s1 s2 : bool) (a1 a2 d1 d2 : Z) :
  0 < a1 -> 0 < a2 -> 1 <= d1 <= 53 -> 1 <= d2 <= 53 ->
  SFeqb (S754_finite s1 (Z.to_pos (a1 * 2 ^ (53 - d1))) (d1 - 54))
        (S754_finite s2 (Z.to_pos (a2 * 2 ^ (53 - d2))) (d2 - 54)) = true ->
  s1 = s2 /\ a1 = a2.
Proof.
  intros A1 A2 D1 D2 E.
  apply SFeqb_finite_inv in E. destruct E as (Es & Em & Ee).
  assert (Ed : d1 = d2) by lia. subst d2.
  assert (HP : 0 < 2 ^ (53 - d1)) by (apply Z.pow_pos_nonneg; lia).
  apply Z2Pos.inj in Em; try (apply Z.mul_pos_pos; assumption).
  apply Z.mul_reg_r in Em; [|lia]. auto.
Qed.

(** Halving two distinct ints below [2 ** 53] gives two floats that
    compare unequal. *)
Lemma halves_differ (w1 w2 : Z) :
  Z.abs w1 < 2 ^ 53 -> Z.abs w2 < 2 ^ 53 -> w1 <> w2 ->
  exists f1 f2,
    long_true_divide w1 2 = Ok (Float f1) /\
    long_true_divide w2 2 = Ok (Float f2) /\
    SFeqb f1 f2 = false.
Proof.
  intros A1 A2 Hw.
  assert (Hd : forall w, w <> 0 -> Z.abs w < 2 ^ 53 ->
                         1 <= Zdigits2 (Z.abs w) <= 53).
  { intros w N A. split; [destruct w; cbn in *; lia|].
    apply Zdigits2_le; lia. }
  destruct (Z.eq_dec w1 0) as [->|N1]; destruct (Z.eq_dec w2 0) as [->|N2];
    try lia.
  - rewrite (long_true_divide_by_2_exact w2) by lia.
    do 2 eexists. split; [reflexivity|]. split; [reflexivity|].
    unfold SFeqb, SFcompare. destruct (w2 <? 0); reflexivity.
  - rewrite (long_true_divide_by_2_exact w1) by lia.
    do 2 eexists. split; [reflexivity|]. split; [reflexivity|].
    unfold SFeqb, SFcompare. destruct (w1 <? 0); reflexivity.
  - rewrite !long_true_divide_by_2_exact by lia.
    do 2 eexists. split; [reflexivity|]. split; [reflexivity|].
    destruct (SFeqb _ _) eqn:E; [exfalso | reflexivity].
    apply scaled_mantissa_inj in E;
      [| lia | lia | apply Hd; assumption | apply Hd; assumption].
    destruct E as [Es Ea].
    destruct (Z.ltb_spec w1 0), (Z.ltb_spec w2 0); try discriminate Es; lia.
Qed.

(** X9: two widths below [2 ** 53] in magnitude that differ give different
    11th vertices. *)
Theorem midfield_centre_follows_width (c1 c2 : FootballFieldConfiguration)
    (v1 v2 : list vertex) :
  Z.abs (width c1) < 2 ^ 53 ->
  Z.abs (width c2) < 2 ^ 53 ->
  width c1 <> width c2 ->
  vertices c1 = Ok v1 ->
  vertices c2 = Ok v2 ->
  differs_at v1 v2 11 = true.
Proof.
  intros B1 B2 Hne H1 H2.
  rewrite vertices_unfold in H1, H2.
  destruct (halves_differ _ _ B1 B2 Hne) as (f1 & f2 & D1 & D2 & Hdiff).
  rewrite D1 in H1. rewrite D2 in H2.
  injection H1 as <-. injection H2 as <-.
  unfold differs_at, vertex_list. cbn [at_pos nth_error].
  unfold tuple_eqb. cbn [fst snd num_eqb].
  rewrite Hdiff, andb_false_r. reflexivity.
Qed.

Lemma midfield_centre_follows_width_witness :
  exists v1 v2,
    vertices (Construct (with_width 1920)) = Ok v1 /\
    vertices (Construct (with_width 1921)) = Ok v2 /\
    differs_at v1 v2 11 = true.
Proof.
  eexists. eexists.
  split; [vm_compute; reflexivity|].
  split; [vm_compute; reflexivity|].
  apply (midfield_centre_follows_width
           (Construct (with_width 1920)) (Construct (with_width 1921)));
    try (vm_compute; reflexivity).
  cbn. discriminate.
Defined.

(** X10: [vertices] fails in one way only: it raises [OverflowError], never
    [ZeroDivisionError], and only for a width of magnitude [2 ** 1024] or
    more; from magnitude [2 ** 1025] on it always raises, whatever the
    other scalars are. *)
Theorem vertices_failure (self : FootballFieldConfiguration) :
  (forall e, vertices self = Raise e ->
             e = OverflowError /\ 2 ^ 1024 <= Z.abs (width self)) /\
  (2 ^ 1025 <= Z.abs (width self) -> vertices self = Raise OverflowError).
Proof.
  split.
  - intros e H. split; [exact (vertices_raise _ _ H)|].
    destruct (Z.le_gt_cases (2 ^ 1024) (Z.abs (width self))) as [|Hlt];
      [assumption|].
    destruct (vertices_returns self Hlt) as (v & Hv & _).
    rewrite Hv in H. discriminate.
  - intros Hw. rewrite vertices_unfold.
    rewrite (long_true_divide_by_2_overflows _ Hw). reflexivity.
Qed.

Lemma vertices_failure_witness :
  vertices (Construct (with_width (- 2 ^ 1025))) = Raise OverflowError /\
  2 ^ 1024 <= Z.abs (- 2 ^ 1025).
Proof.
  destruct (vertices_failure (Construct (with_width (- 2 ^ 1025))))
    as (Hraise & Hbig).
  assert (H : vertices (Construct (with_width (- 2 ^ 1025)))
              = Raise OverflowError)
    by (apply Hbig; vm_compute; discriminate).
  split; [exact H|]. exact (proj2 (Hraise _ H)).
Defined.

(** ** Labels *)

(** X11: each label is the two-digit rendering of its 1-based position, so the
    32 labels are pairwise distinct. *)
Theorem labels_are_positions (o : scalar_overrides) :
  (forall i, (1 <= i <= 32)%nat ->
             at_pos (labels (Construct o)) i = Some (two_digits i)) /\
  NoDup (labels (Construct o)).
Proof.
  destruct (Construct_literals o) as (_ & -> & _).
  split.
  - intros i Hi.
    do 33 (destruct i as [|i]; [try lia; reflexivity|]). lia.
  - assert (E : nodup string_dec default_labels = default_labels)
      by (vm_compute; reflexivity).
    rewrite <- E. apply NoDup_nodup.
Qed.

Lemma labels_are_positions_witness :
  at_pos (labels (Construct no_overrides)) 9 = Some "09"%string.
Proof.
  apply (proj1 (labels_are_positions no_overrides) 9%nat). lia.
Defined.
